(** * BackstageFargateServiceConstruct

    A shallow embedding of
    [src/infrastructure/src/constructs/backstage-fargate-service-construct.ts]
    and the properties of the construct's constructor.

    The constructor is a straight-line composition of aws-cdk-lib calls.  It
    is embedded as a computation in a small state-and-exception monad over a
    recorder of the resource graph: every library call the constructor issues
    is appended to a log, and a JavaScript exception stops the computation
    while keeping what was recorded before it. *)

From Stdlib Require Import ZArith DecimalString DecimalPos DecimalZ.
From stdpp Require Import gmap strings list fin_maps.

Open Scope string_scope.
Open Scope list_scope.

(** ** JavaScript values the construct manipulates *)

(** An optional property of a JavaScript object is in one of three states:
    the object does not own the key, it owns the key bound to [undefined],
    or it owns the key bound to a value. *)
Inductive Own (A : Type) : Type :=
| Absent
| Undefined
| Defined (a : A).

Arguments Absent {A}.
Arguments Undefined {A}.
Arguments Defined {A} a.

(** [{...a, ...b}] at one key: the own properties of [a] are copied first,
    then those of [b]; a key that [b] owns overwrites, whatever it is bound
    to, and a key that [b] does not own leaves the one of [a]. *)
Definition spread_key {A : Type} (a b : Own A) : Own A :=
  match b with
  | Absent => a
  | Undefined => Undefined
  | Defined v => Defined v
  end.

(** The same for a key that the right operand owns by its type. *)
Definition spread_required {A : Type} (a : Own A) (b : A) : A := b.

(** An object literal: later bindings of a key overwrite earlier ones. *)
Definition object {V : Type} (l : list (string * V)) : gmap string V :=
  fold_left (fun m kv => <[kv.1 := kv.2]> m) l ∅.

(** A template literal [`${n}`] over an integral number. *)
Definition number_to_string (n : Z) : string :=
  NilZero.string_of_int (Z.to_int n).

Inductive JsError : Type :=
| TypeError (msg : string).

(** ** Handles of the resources the construct consumes *)

Record IVpc := { vpcId : string }.
Record ISecurityGroup := { securityGroupId : string }.
Record NetworkConstruct := { vpc : IVpc; allowedIpsSg : ISecurityGroup }.
Record IRepository := { repositoryName : string }.
Record IKey := { keyId : string }.
Record IBucket := { bucketName : string }.
Record ISecret := { secretName : string }.
Record Role := { roleName : string }.
Record IHostedZone := { zoneName : string }.
Record HostedZoneConstruct := { hostedZone' : IHostedZone }.

Record Endpoint := { hostname : string; port : Z }.

(** The network perimeter of a resource: the security group its inbound
    rules are attached to. *)
Record Connections := { perimeterId : string }.

(** [rds.DatabaseCluster]; [secret] is declared [secret?: ISecret]. *)
Record DatabaseCluster := {
  clusterEndpoint : Endpoint;
  secret : option ISecret;
  connections : Connections
}.

(** [BackstageInfraConfig] is declared in [../helpers/infra-config]; these
    are the fields the construct reads, all of them strings. *)
Record BackstageInfraConfig := {
  AppPrefix : string;
  R53HostedZoneName : string;
  CustomerName : string;
  CustomerLogo : string;
  CustomerLogoIcon : string
}.

(** [ecs.Secret]: a reference to a secret, optionally to one JSON field. *)
Record EcsSecret := { secretRef : ISecret; secretField : option string }.

Abbreviation EnvVar := (gmap string string).
Abbreviation SecretVar := (gmap string EcsSecret).

(** ** The construct's properties *)

Record BackstageFargateServiceConstructProps := {
  network : NetworkConstruct;
  ecrRepository : IRepository;
  ecrKmsKey : Own IKey;
  accessLogBucket : IBucket;
  dbCluster : DatabaseCluster;
  config : BackstageInfraConfig;
  oktaSecret : ISecret;
  gitlabAdminSecret : ISecret;
  taskRole : Role;
  hostedZone : HostedZoneConstruct;
  envVars : Own EnvVar;
  secretVars : Own SecretVar
}.

(** [Partial<BackstageFargateServiceConstructProps>]: every key optional. *)
Record PartialProps := {
  p_network : Own NetworkConstruct;
  p_ecrRepository : Own IRepository;
  p_ecrKmsKey : Own IKey;
  p_accessLogBucket : Own IBucket;
  p_dbCluster : Own DatabaseCluster;
  p_config : Own BackstageInfraConfig;
  p_oktaSecret : Own ISecret;
  p_gitlabAdminSecret : Own ISecret;
  p_taskRole : Own Role;
  p_hostedZone : Own HostedZoneConstruct;
  p_envVars : Own EnvVar;
  p_secretVars : Own SecretVar
}.

Definition defaultProps : PartialProps := {|
  p_network := Absent;
  p_ecrRepository := Absent;
  p_ecrKmsKey := Absent;
  p_accessLogBucket := Absent;
  p_dbCluster := Absent;
  p_config := Absent;
  p_oktaSecret := Absent;
  p_gitlabAdminSecret := Absent;
  p_taskRole := Absent;
  p_hostedZone := Absent;
  p_envVars := Defined ∅;
  p_secretVars := Defined ∅
|}.

(** [{ ...d, ...props }], key by key. *)
Definition spread (d : PartialProps) (props : BackstageFargateServiceConstructProps)
  : BackstageFargateServiceConstructProps := {|
  network := spread_required (p_network d) (network props);
  ecrRepository := spread_required (p_ecrRepository d) (ecrRepository props);
  ecrKmsKey := spread_key (p_ecrKmsKey d) (ecrKmsKey props);
  accessLogBucket := spread_required (p_accessLogBucket d) (accessLogBucket props);
  dbCluster := spread_required (p_dbCluster d) (dbCluster props);
  config := spread_required (p_config d) (config props);
  oktaSecret := spread_required (p_oktaSecret d) (oktaSecret props);
  gitlabAdminSecret := spread_required (p_gitlabAdminSecret d) (gitlabAdminSecret props);
  taskRole := spread_required (p_taskRole d) (taskRole props);
  hostedZone := spread_required (p_hostedZone d) (hostedZone props);
  envVars := spread_key (p_envVars d) (envVars props);
  secretVars := spread_key (p_secretVars d) (secretVars props)
|}.

(** ** Resources the construct creates *)

(** A construct of the tree, named by its path. *)
Record Construct := { path : string }.

Definition child (scope : Construct) (id : string) : Construct :=
  {| path := path scope +:+ "/" +:+ id |}.

Record ClusterProps := { cp_vpc : IVpc; containerInsights : bool }.
Record ICluster := { clusterNode : Construct; clusterProps : ClusterProps }.

Inductive ApplicationProtocol : Type := HTTP | HTTPS.

Record ContainerImage := { fromRepository : IRepository }.

Record TaskImageOptions := {
  image : ContainerImage;
  environment : EnvVar;
  secrets : SecretVar;
  containerPort : Z;
  ti_taskRole : Role
}.

Record ApplicationLoadBalancedFargateServiceProps := {
  sp_cluster : ICluster;
  enableExecuteCommand : bool;
  redirectHTTP : bool;
  protocol : ApplicationProtocol;
  taskImageOptions : TaskImageOptions;
  openListener : bool;
  memoryLimitMiB : Z;
  cpu : Z;
  desiredCount : Z;
  domainZone : IHostedZone;
  domainName : string
}.

Record ApplicationLoadBalancer := { lbNode : Construct }.
Record FargateService := { serviceNode : Construct }.
Record FargateTaskDefinition := { executionRole : Role }.

Record ApplicationLoadBalancedFargateService := {
  service : FargateService;
  loadBalancer' : ApplicationLoadBalancer;
  taskDefinition : FargateTaskDefinition
}.

(** An inbound-allow rule on the default port of a perimeter. *)
Record IngressRule := { peer : FargateService; description : string }.

(** ** The recorder *)

(** The library calls that change the resource graph. *)
Inductive Call : Type :=
| NewSecret (node : Construct)
| NewCluster (node : Construct) (props : ClusterProps)
| NewApplicationLoadBalancedFargateService
    (node : Construct) (props : ApplicationLoadBalancedFargateServiceProps)
| LogAccessLogs (lb : ApplicationLoadBalancer) (bucket : IBucket)
| GrantDecrypt (key : IKey) (grantee : Role)
| AllowDefaultPortFrom (on : Connections) (other : FargateService) (description : string)
| AddSecurityGroup (lb : ApplicationLoadBalancer) (sg : ISecurityGroup).

(** The state the calls act on: the log of calls, oldest first, and the
    inbound rules of every perimeter.  A perimeter is shared by all the
    handles that name it. *)
Record World := {
  calls : list Call;
  ingress : gmap string (list IngressRule)
}.

Definition rules (w : World) (c : Connections) : list IngressRule :=
  default [] (ingress w !! perimeterId c).

Inductive Outcome (A : Type) : Type :=
| Returned (a : A)
| Thrown (e : JsError).

Arguments Returned {A} a.
Arguments Thrown {A} e.

Definition Cdk (A : Type) : Type := World -> Outcome A * World.

Definition ret {A : Type} (a : A) : Cdk A := fun w => (Returned a, w).

Definition throw {A : Type} (e : JsError) : Cdk A := fun w => (Thrown e, w).

Definition bind {A B : Type} (m : Cdk A) (k : A -> Cdk B) : Cdk B :=
  fun w =>
    match m w with
    | (Returned a, w') => k a w'
    | (Thrown e, w') => (Thrown e, w')
    end.

Notation "'let*' x ':=' m 'in' k" := (bind m (fun x => k))
  (at level 10, x name, m at level 100, k at level 200).
Notation "'run' m 'in' k" := (bind m (fun _ => k))
  (at level 10, m at level 100, k at level 200).

Definition record (c : Call) : Cdk unit :=
  fun w => (Returned tt, {| calls := calls w ++ [c]; ingress := ingress w |}).

(** ** The aws-cdk-lib calls the constructor issues

    The library is not part of the repository.  Each call is modelled by what
    it records in the resource graph and by the handle it returns; handles of
    created resources are named by their path in the construct tree. *)

(** [new Secret(scope, id)]: a secret whose value the store generates. *)
Definition new_Secret (scope : Construct) (id : string) : Cdk ISecret :=
  run record (NewSecret (child scope id)) in
  ret {| secretName := path (child scope id) |}.

(** [new ecs.Cluster(scope, id, props)]. *)
Definition new_Cluster (scope : Construct) (id : string) (props : ClusterProps)
  : Cdk ICluster :=
  run record (NewCluster (child scope id) props) in
  ret {| clusterNode := child scope id; clusterProps := props |}.

(** [ecs.ContainerImage.fromEcrRepository(repository)]. *)
Definition fromEcrRepository (repository : IRepository) : ContainerImage :=
  {| fromRepository := repository |}.

(** [ecs.Secret.fromSecretsManager(secret, field?)].  The library builds the
    reference from [secret.secretArn]; on [undefined], which is what a
    [secret!] over an absent credential handle evaluates to, reading the
    property throws a [TypeError]. *)
Definition fromSecretsManager (s : option ISecret) (field : option string)
  : Cdk EcsSecret :=
  match s with
  | Some s => ret {| secretRef := s; secretField := field |}
  | None => throw (TypeError "Cannot read properties of undefined (reading 'secretArn')")
  end.

(** [new ecsPatterns.ApplicationLoadBalancedFargateService(scope, id, props)]:
    one load balancer, one service and one task definition with its execution
    role, below the node of the pattern. *)
Definition new_ApplicationLoadBalancedFargateService
    (scope : Construct) (id : string) (props : ApplicationLoadBalancedFargateServiceProps)
  : Cdk ApplicationLoadBalancedFargateService :=
  run record (NewApplicationLoadBalancedFargateService (child scope id) props) in
  ret {| service := {| serviceNode := child (child scope id) "Service" |};
         loadBalancer' := {| lbNode := child (child scope id) "LB" |};
         taskDefinition :=
           {| executionRole :=
                {| roleName := path (child (child (child scope id) "TaskDef") "ExecutionRole") |} |} |}.

(** [loadBalancer.logAccessLogs(bucket)]. *)
Definition logAccessLogs (lb : ApplicationLoadBalancer) (bucket : IBucket) : Cdk unit :=
  record (LogAccessLogs lb bucket).

(** [key.grantDecrypt(grantee)]. *)
Definition grantDecrypt (key : IKey) (grantee : Role) : Cdk unit :=
  record (GrantDecrypt key grantee).

(** Modelled from the spec: [Connections.allowDefaultPortFrom] belongs to
    aws-cdk-lib and is not under src/.  The spec describes the perimeter as
    the set of inbound-allow rules of a resource, which "can be told allow
    inbound from X" and is "mutated additively", the component itself not
    deduplicating: the call appends one rule for [other] to the rules of the
    perimeter and touches nothing else. *)
Definition allowDefaultPortFrom (on : Connections) (other : FargateService)
    (description : string) : Cdk unit :=
  fun w =>
    (Returned tt,
     {| calls := calls w ++ [AllowDefaultPortFrom on other description];
        ingress := <[perimeterId on :=
                       rules w on ++ [{| peer := other; description := description |}]]>
                     (ingress w) |}).

(** [loadBalancer.connections.addSecurityGroup(sg)]. *)
Definition addSecurityGroup (lb : ApplicationLoadBalancer) (sg : ISecurityGroup) : Cdk unit :=
  record (AddSecurityGroup lb sg).

(** ** The construct *)

Record BackstageFargateServiceConstruct := {
  cluster : ICluster;
  loadBalancer : ApplicationLoadBalancer
}.

(** [constructor(scope, id, props)].  The arguments of a call are evaluated
    before the call, so the eight secret references are built, in the order of
    the object literal, before the load-balanced service is created. *)
Definition constructor (scope : Construct) (id : string)
    (props : BackstageFargateServiceConstructProps)
  : Cdk BackstageFargateServiceConstruct :=
  let this := child scope id in
  let props := spread defaultProps props in
  let* backstageSecret :=
    new_Secret this (AppPrefix (config props) +:+ "-backstage-appsecret") in
  let* cluster :=
    new_Cluster this "backstage-solution-cluster"
      {| cp_vpc := vpc (network props); containerInsights := true |} in
  let image := fromEcrRepository (ecrRepository props) in
  let environment := object [
    ("POSTGRES_HOST", hostname (clusterEndpoint (dbCluster props)));
    ("POSTGRES_PORT", number_to_string (port (clusterEndpoint (dbCluster props))));
    ("BACKSTAGE_TITLE", "Backstage AWS Suite");
    ("BACKSTAGE_ORGNAME", "BAWS");
    ("PROTOCOL", "https");
    ("BACKSTAGE_HOSTNAME", R53HostedZoneName (config props));
    ("GITLAB_HOSTNAME", "git." +:+ R53HostedZoneName (config props));
    ("BACKSTAGE_PORT", "443");
    ("NODE_ENV", "production");
    ("CUSTOMER_NAME", CustomerName (config props));
    ("CUSTOMER_LOGO", CustomerLogo (config props));
    ("CUSTOMER_LOGO_ICON", CustomerLogoIcon (config props))
  ] in
  let* postgresUser := fromSecretsManager (secret (dbCluster props)) (Some "username") in
  let* postgresPassword := fromSecretsManager (secret (dbCluster props)) (Some "password") in
  let* oktaOrgUrl := fromSecretsManager (Some (oktaSecret props)) (Some "audience") in
  let* oktaClientId := fromSecretsManager (Some (oktaSecret props)) (Some "clientId") in
  let* oktaClientSecret := fromSecretsManager (Some (oktaSecret props)) (Some "clientSecret") in
  let* oktaApiToken := fromSecretsManager (Some (oktaSecret props)) (Some "apiToken") in
  let* backstageSecretRef := fromSecretsManager (Some backstageSecret) None in
  let* gitlabAdminToken :=
    fromSecretsManager (Some (gitlabAdminSecret props)) (Some "apiToken") in
  let secrets := object [
    ("POSTGRES_USER", postgresUser);
    ("POSTGRES_PASSWORD", postgresPassword);
    ("OKTA_ORG_URL", oktaOrgUrl);
    ("OKTA_CLIENT_ID", oktaClientId);
    ("OKTA_CLIENT_SECRET", oktaClientSecret);
    ("OKTA_API_TOKEN", oktaApiToken);
    ("BACKSTAGE_SECRET", backstageSecretRef);
    ("GITLAB_ADMIN_TOKEN", gitlabAdminToken)
  ] in
  let* albFargateService :=
    new_ApplicationLoadBalancedFargateService this
      (AppPrefix (config props) +:+ "-backstage")
      {| sp_cluster := cluster;
         enableExecuteCommand := true;
         redirectHTTP := true;
         protocol := HTTPS;
         taskImageOptions :=
           {| image := image;
              environment := environment;
              secrets := secrets;
              containerPort := 8080;
              ti_taskRole := taskRole props |};
         openListener := false;
         memoryLimitMiB := 2048;
         cpu := 512;
         desiredCount := 2;
         domainZone := hostedZone' (hostedZone props);
         domainName := zoneName (hostedZone' (hostedZone props)) |} in
  run logAccessLogs (loadBalancer' albFargateService) (accessLogBucket props) in
  run match ecrKmsKey props with
      | Defined key => grantDecrypt key (executionRole (taskDefinition albFargateService))
      | Absent | Undefined => ret tt
      end in
  run allowDefaultPortFrom (connections (dbCluster props)) (service albFargateService)
        "from fargate service" in
  run addSecurityGroup (loadBalancer' albFargateService) (allowedIpsSg (network props)) in
  ret {| cluster := cluster; loadBalancer := loadBalancer' albFargateService |}.

(** ** Observations on a run *)

Definition service_of (c : Call) : option ApplicationLoadBalancedFargateServiceProps :=
  match c with
  | NewApplicationLoadBalancedFargateService _ props => Some props
  | _ => None
  end.

(** The load-balanced services a log creates, oldest first. *)
Definition services (l : list Call) : list ApplicationLoadBalancedFargateServiceProps :=
  omap service_of l.

Definition grant_of (c : Call) : option (IKey * Role) :=
  match c with
  | GrantDecrypt key grantee => Some (key, grantee)
  | _ => None
  end.

(** The decrypt grants a log issues, as pairs of key and grantee. *)
Definition grants (l : list Call) : list (IKey * Role) :=
  omap grant_of l.

(** The calls a run of the constructor adds to the log it starts from. *)
Definition issued (scope : Construct) (id : string)
    (props : BackstageFargateServiceConstructProps) (w : World) : list Call :=
  drop (length (calls w)) (calls (constructor scope id props w).2).

(** The nodes and handles of one run. *)
Definition secretNode (scope : Construct) (id : string) (cfg : BackstageInfraConfig) : Construct :=
  child (child scope id) (AppPrefix cfg +:+ "-backstage-appsecret").

Definition clusterOf (scope : Construct) (id : string) (nw : NetworkConstruct) : ICluster :=
  {| clusterNode := child (child scope id) "backstage-solution-cluster";
     clusterProps := {| cp_vpc := vpc nw; containerInsights := true |} |}.

Definition patternNode (scope : Construct) (id : string) (cfg : BackstageInfraConfig) : Construct :=
  child (child scope id) (AppPrefix cfg +:+ "-backstage").

Definition serviceOf (scope : Construct) (id : string) (cfg : BackstageInfraConfig) : FargateService :=
  {| serviceNode := child (patternNode scope id cfg) "Service" |}.

Definition loadBalancerOf (scope : Construct) (id : string) (cfg : BackstageInfraConfig)
  : ApplicationLoadBalancer :=
  {| lbNode := child (patternNode scope id cfg) "LB" |}.

Definition executionRoleOf (scope : Construct) (id : string) (cfg : BackstageInfraConfig) : Role :=
  {| roleName := path (child (child (patternNode scope id cfg) "TaskDef") "ExecutionRole") |}.

Definition grantCalls (key : Own IKey) (grantee : Role) : list Call :=
  match key with
  | Defined k => [GrantDecrypt k grantee]
  | Absent | Undefined => []
  end.

(** A world with nothing recorded and no rule on any perimeter. *)
Definition emptyWorld : World := {| calls := []; ingress := ∅ |}.

(** ** Sample inputs *)

Module Sample.

Definition root : Construct := {| path := "BackstageStack" |}.

Definition db (credentials : option ISecret) : DatabaseCluster :=
  {| clusterEndpoint := {| hostname := "db.internal"; port := 5432 |};
     secret := credentials;
     connections := {| perimeterId := "sg-database" |} |}.

Definition props (key : Own IKey) (credentials : option ISecret)
    (env : Own EnvVar) (sec : Own SecretVar) : BackstageFargateServiceConstructProps :=
  {| network := {| vpc := {| vpcId := "vpc-1" |};
                   allowedIpsSg := {| securityGroupId := "sg-allowed-ips" |} |};
     ecrRepository := {| repositoryName := "backstage" |};
     ecrKmsKey := key;
     accessLogBucket := {| bucketName := "access-logs" |};
     dbCluster := db credentials;
     config := {| AppPrefix := "baws";
                  R53HostedZoneName := "example.com";
                  CustomerName := "ACME";
                  CustomerLogo := "logo.png";
                  CustomerLogoIcon := "icon.png" |};
     oktaSecret := {| secretName := "okta" |};
     gitlabAdminSecret := {| secretName := "gitlab-admin" |};
     taskRole := {| roleName := "task-role" |};
     hostedZone := {| hostedZone' := {| zoneName := "example.com" |} |};
     envVars := env;
     secretVars := sec |}.

Definition credentials : ISecret := {| secretName := "db-credentials" |}.
Definition key : IKey := {| keyId := "ecr-key" |}.

(** The scenario of the specification: a database at [db.internal:5432]
    and empty caller maps. *)
Definition scenario : BackstageFargateServiceConstructProps :=
  props Absent (Some credentials) (Defined ∅) (Defined ∅).

(** A caller that supplies one plaintext variable and one secret reference. *)
Definition withCallerVars : BackstageFargateServiceConstructProps :=
  props Absent (Some credentials)
    (Defined {["LOG_LEVEL" := "debug"]})
    (Defined {["GITHUB_TOKEN" := {| secretRef := {| secretName := "github" |};
                                    secretField := Some "token" |}]}).

(** A database cluster that carries no credential handle. *)
Definition noCredentials : BackstageFargateServiceConstructProps :=
  props (Defined key) None Absent Absent.

End Sample.

(** ** Key sets of the injected environment *)

(** The keys the specification lists as the fixed required set: the four
    [POSTGRES_*] keys, the identity-provider keys, the peer-system admin token
    and the generated service secret. *)
Definition requiredKeys : gset string :=
  {[ "POSTGRES_HOST"; "POSTGRES_PORT"; "POSTGRES_USER"; "POSTGRES_PASSWORD";
     "OKTA_ORG_URL"; "OKTA_CLIENT_ID"; "OKTA_CLIENT_SECRET"; "OKTA_API_TOKEN";
     "BACKSTAGE_SECRET"; "GITLAB_ADMIN_TOKEN" ]}.

(** The keys of the [environment] literal. *)
Definition environmentKeys : gset string :=
  {[ "POSTGRES_HOST"; "POSTGRES_PORT"; "BACKSTAGE_TITLE"; "BACKSTAGE_ORGNAME";
     "PROTOCOL"; "BACKSTAGE_HOSTNAME"; "GITLAB_HOSTNAME"; "BACKSTAGE_PORT";
     "NODE_ENV"; "CUSTOMER_NAME"; "CUSTOMER_LOGO"; "CUSTOMER_LOGO_ICON" ]}.

(** The keys of the [secrets] literal. *)
Definition secretKeys : gset string :=
  {[ "POSTGRES_USER"; "POSTGRES_PASSWORD"; "OKTA_ORG_URL"; "OKTA_CLIENT_ID";
     "OKTA_CLIENT_SECRET"; "OKTA_API_TOKEN"; "BACKSTAGE_SECRET"; "GITLAB_ADMIN_TOKEN" ]}.

(** ** Further observations on a log *)



Definition cluster_of (c : Call) : option (Construct * ClusterProps) :=
  match c with
  | NewCluster node props => Some (node, props)
  | _ => None
  end.

(** The clusters a log creates. *)
Definition clustersCreated (l : list Call) : list (Construct * ClusterProps) :=
  omap cluster_of l.

Definition securityGroup_of (c : Call) : option (ApplicationLoadBalancer * ISecurityGroup) :=
  match c with
  | AddSecurityGroup lb sg => Some (lb, sg)
  | _ => None
  end.

(** The security groups a log attaches to load balancers. *)
Definition securityGroupsAdded (l : list Call)
  : list (ApplicationLoadBalancer * ISecurityGroup) :=
  omap securityGroup_of l.

(** The same props with other caller maps. *)
Definition withVars (props : BackstageFargateServiceConstructProps)
    (env : Own EnvVar) (sec : Own SecretVar) : BackstageFargateServiceConstructProps :=
  {| network := network props;
     ecrRepository := ecrRepository props;
     ecrKmsKey := ecrKmsKey props;
     accessLogBucket := accessLogBucket props;
     dbCluster := dbCluster props;
     config := config props;
     oktaSecret := oktaSecret props;
     gitlabAdminSecret := gitlabAdminSecret props;
     taskRole := taskRole props;
     hostedZone := hostedZone props;
     envVars := env;
     secretVars := sec |}.

(** The last character of a string. *)
Fixpoint lastChar (s : string) : option Ascii.ascii :=
  match s with
  | "" => None
  | String a "" => Some a
  | String _ s' => lastChar s'
  end.

(** ** Symbolic runs of the constructor *)

Ltac step_constructor :=
  cbv beta iota zeta delta
    [constructor bind ret throw record new_Secret new_Cluster fromSecretsManager
     new_ApplicationLoadBalancedFargateService logAccessLogs grantDecrypt
     allowDefaultPortFrom addSecurityGroup fromEcrRepository
     spread spread_required spread_key defaultProps p_ecrKmsKey
     network ecrRepository ecrKmsKey accessLogBucket dbCluster config oktaSecret
     gitlabAdminSecret taskRole hostedZone envVars secretVars
     calls ingress service loadBalancer' taskDefinition executionRole
     secretNode clusterOf patternNode serviceOf loadBalancerOf executionRoleOf
     grantCalls rules].

(** The service definition that a run on a database cluster with credential
    handle [s] passes to the pattern; [constructor_returns] below checks it
    against the constructor. *)
Definition serviceDefinition (scope : Construct) (id : string)
    (props : BackstageFargateServiceConstructProps) (s : ISecret)
  : ApplicationLoadBalancedFargateServiceProps :=
  {| sp_cluster := clusterOf scope id (network props);
     enableExecuteCommand := true;
     redirectHTTP := true;
     protocol := HTTPS;
     taskImageOptions :=
       {| image := {| fromRepository := ecrRepository props |};
          environment := object [
            ("POSTGRES_HOST", hostname (clusterEndpoint (dbCluster props)));
            ("POSTGRES_PORT", number_to_string (port (clusterEndpoint (dbCluster props))));
            ("BACKSTAGE_TITLE", "Backstage AWS Suite");
            ("BACKSTAGE_ORGNAME", "BAWS");
            ("PROTOCOL", "https");
            ("BACKSTAGE_HOSTNAME", R53HostedZoneName (config props));
            ("GITLAB_HOSTNAME", "git." +:+ R53HostedZoneName (config props));
            ("BACKSTAGE_PORT", "443");
            ("NODE_ENV", "production");
            ("CUSTOMER_NAME", CustomerName (config props));
            ("CUSTOMER_LOGO", CustomerLogo (config props));
            ("CUSTOMER_LOGO_ICON", CustomerLogoIcon (config props))];
          secrets := object [
            ("POSTGRES_USER", {| secretRef := s; secretField := Some "username" |});
            ("POSTGRES_PASSWORD", {| secretRef := s; secretField := Some "password" |});
            ("OKTA_ORG_URL",
             {| secretRef := oktaSecret props; secretField := Some "audience" |});
            ("OKTA_CLIENT_ID",
             {| secretRef := oktaSecret props; secretField := Some "clientId" |});
            ("OKTA_CLIENT_SECRET",
             {| secretRef := oktaSecret props; secretField := Some "clientSecret" |});
            ("OKTA_API_TOKEN",
             {| secretRef := oktaSecret props; secretField := Some "apiToken" |});
            ("BACKSTAGE_SECRET",
             {| secretRef := {| secretName := path (secretNode scope id (config props)) |};
                secretField := None |});
            ("GITLAB_ADMIN_TOKEN",
             {| secretRef := gitlabAdminSecret props; secretField := Some "apiToken" |})];
          containerPort := 8080;
          ti_taskRole := taskRole props |};
     openListener := false;
     memoryLimitMiB := 2048;
     cpu := 512;
     desiredCount := 2;
     domainZone := hostedZone' (hostedZone props);
     domainName := zoneName (hostedZone' (hostedZone props)) |}.

(** The calls of a run that returns, in the order they are issued. *)
Definition trace (scope : Construct) (id : string)
    (props : BackstageFargateServiceConstructProps) (s : ISecret) : list Call :=
  [NewSecret (secretNode scope id (config props));
   NewCluster (clusterNode (clusterOf scope id (network props)))
              (clusterProps (clusterOf scope id (network props)));
   NewApplicationLoadBalancedFargateService
     (patternNode scope id (config props)) (serviceDefinition scope id props s);
   LogAccessLogs (loadBalancerOf scope id (config props)) (accessLogBucket props)] ++
  grantCalls (ecrKmsKey props) (executionRoleOf scope id (config props)) ++
  [AllowDefaultPortFrom (connections (dbCluster props))
     (serviceOf scope id (config props)) "from fargate service";
   AddSecurityGroup (loadBalancerOf scope id (config props))
     (allowedIpsSg (network props))].

(** The calls of a run that throws. *)
Definition traceThrown (scope : Construct) (id : string)
    (props : BackstageFargateServiceConstructProps) : list Call :=
  [NewSecret (secretNode scope id (config props));
   NewCluster (clusterNode (clusterOf scope id (network props)))
              (clusterProps (clusterOf scope id (network props)))].

(** The rule a run adds to the perimeter of the database. *)
Definition serviceRule (scope : Construct) (id : string)
    (props : BackstageFargateServiceConstructProps) : IngressRule :=
  {| peer := serviceOf scope id (config props); description := "from fargate service" |}.

(** The run on a database cluster that carries its credential handle: the
    constructor returns the cluster and the load balancer, the log grows by
    [trace], and one rule is appended to the perimeter of the database. *)
Lemma constructor_returns scope id props s w :
  secret (dbCluster props) = Some s ->
  constructor scope id props w =
    (Returned {| cluster := clusterOf scope id (network props);
                 loadBalancer := loadBalancerOf scope id (config props) |},
     {| calls := calls w ++ trace scope id props s;
        ingress :=
          <[perimeterId (connections (dbCluster props)) :=
              rules w (connections (dbCluster props)) ++ [serviceRule scope id props]]>
            (ingress w) |}).
Proof.
  intros Hs.
  destruct props as [nw repo key bucket db cfg okta gitlab role hz ev sv].
  destruct w as [log rs].
  cbn [dbCluster] in Hs.
  unfold trace, serviceRule, serviceDefinition.
  step_constructor. rewrite Hs.
  destruct key; step_constructor; rewrite <- ?app_assoc; reflexivity.
Qed.

(** The run on a database cluster without credential handle: building the
    first secret reference throws, after the application secret and the
    cluster were created. *)
Lemma constructor_throws scope id props w :
  secret (dbCluster props) = None ->
  constructor scope id props w =
    (Thrown (TypeError "Cannot read properties of undefined (reading 'secretArn')"),
     {| calls := calls w ++ traceThrown scope id props; ingress := ingress w |}).
Proof.
  intros Hs.
  destruct props as [nw repo key bucket db cfg okta gitlab role hz ev sv].
  destruct w as [log rs].
  cbn [dbCluster] in Hs.
  unfold traceThrown.
  step_constructor. rewrite Hs.
  step_constructor. rewrite <- ?app_assoc. reflexivity.
Qed.

Lemma issued_returns scope id props s w :
  secret (dbCluster props) = Some s ->
  issued scope id props w = trace scope id props s.
Proof.
  intros Hs. unfold issued.
  rewrite (constructor_returns scope id props s w Hs). cbn [snd calls].
  apply drop_app_length.
Qed.

Lemma issued_throws scope id props w :
  secret (dbCluster props) = None ->
  issued scope id props w = traceThrown scope id props.
Proof.
  intros Hs. unfold issued.
  rewrite (constructor_throws scope id props w Hs). cbn [snd calls].
  apply drop_app_length.
Qed.

(** Whatever the run does, the log it leaves is the log it found followed by
    the calls it issued. *)
Lemma calls_issued scope id props w :
  calls (constructor scope id props w).2 = calls w ++ issued scope id props w.
Proof.
  destruct (secret (dbCluster props)) as [s|] eqn:Hs.
  - rewrite (issued_returns _ _ _ s) by done.
    by rewrite (constructor_returns scope id props s w Hs).
  - rewrite issued_throws by done.
    by rewrite (constructor_throws scope id props w Hs).
Qed.

Lemma services_trace scope id props s :
  services (trace scope id props s) = [serviceDefinition scope id props s].
Proof. unfold trace, grantCalls. by destruct (ecrKmsKey props). Qed.

Lemma grants_trace scope id props s :
  grants (trace scope id props s) =
    match ecrKmsKey props with
    | Defined k => [(k, executionRoleOf scope id (config props))]
    | Absent | Undefined => []
    end.
Proof. unfold trace, grantCalls. by destruct (ecrKmsKey props). Qed.

Lemma rules_returns scope id props s w c :
  secret (dbCluster props) = Some s ->
  rules (constructor scope id props w).2 c =
    if decide (perimeterId (connections (dbCluster props)) = perimeterId c)
    then rules w c ++ [serviceRule scope id props]
    else rules w c.
Proof.
  intros Hs. rewrite (constructor_returns scope id props s w Hs).
  unfold rules at 1. cbn [snd ingress].
  rewrite lookup_insert. case_decide as Hc; [|done].
  cbn. unfold rules. by rewrite Hc.
Qed.

Lemma rules_throws scope id props w c :
  secret (dbCluster props) = None ->
  rules (constructor scope id props w).2 c = rules w c.
Proof. intros Hs. by rewrite (constructor_throws scope id props w Hs). Qed.

(** No run removes a rule from any perimeter. *)
Lemma rules_preserved scope id props w c r :
  r ∈ rules w c -> r ∈ rules (constructor scope id props w).2 c.
Proof.
  intros Hr. destruct (secret (dbCluster props)) as [s|] eqn:Hs.
  - rewrite (rules_returns _ _ _ s) by done. case_decide; [|done].
    apply elem_of_app. by left.
  - by rewrite rules_throws.
Qed.

(** ** The injected environment *)

Lemma dom_environment scope id props s :
  dom (environment (taskImageOptions (serviceDefinition scope id props s))) = environmentKeys.
Proof. reflexivity. Qed.

Lemma dom_secrets scope id props s :
  dom (secrets (taskImageOptions (serviceDefinition scope id props s))) = secretKeys.
Proof. reflexivity. Qed.

Lemma requiredKeys_injected : requiredKeys ⊆ environmentKeys ∪ secretKeys.
Proof. apply (bool_decide_unpack _). by vm_compute. Qed.

(** C1 (the code departs from the claim and from the documentation of
    [envVars] and [secretVars]).  A caller supplies the plaintext variable
    [LOG_LEVEL = debug] and the secret reference [GITHUB_TOKEN]; the
    constructor returns, creates one service, and neither key is in the
    environment or in the secrets of its container, which hold the fixed keys
    only. *)
Theorem C1_caller_vars_dropped :
  ∃ env sec sp,
    envVars Sample.withCallerVars = Defined env
    ∧ env !! "LOG_LEVEL" = Some "debug"
    ∧ secretVars Sample.withCallerVars = Defined sec
    ∧ is_Some (sec !! "GITHUB_TOKEN")
    ∧ services (issued Sample.root "Backstage" Sample.withCallerVars emptyWorld) = [sp]
    ∧ environment (taskImageOptions sp) !! "LOG_LEVEL" = None
    ∧ secrets (taskImageOptions sp) !! "GITHUB_TOKEN" = None
    ∧ dom (environment (taskImageOptions sp)) = environmentKeys
    ∧ dom (secrets (taskImageOptions sp)) = secretKeys.
Proof.
  eexists _, _, _. split_and!.
  - reflexivity.
  - reflexivity.
  - reflexivity.
  - eexists. reflexivity.
  - rewrite (issued_returns _ _ _ Sample.credentials) by reflexivity.
    apply services_trace.
  - reflexivity.
  - reflexivity.
  - reflexivity.
  - reflexivity.
Qed.

(** ** Failure on a missing credential handle *)

(** C2, as stated, fails: on a database cluster without credential handle
    the run throws, and by then the application secret and the cluster have
    been created. *)
Lemma C2_counterexample :
  secret (dbCluster Sample.noCredentials) = None
  ∧ (∃ e, (constructor Sample.root "Backstage" Sample.noCredentials emptyWorld).1 = Thrown e)
  ∧ calls (constructor Sample.root "Backstage" Sample.noCredentials emptyWorld).2 =
      [NewSecret {| path := "BackstageStack/Backstage/baws-backstage-appsecret" |};
       NewCluster {| path := "BackstageStack/Backstage/backstage-solution-cluster" |}
                  {| cp_vpc := {| vpcId := "vpc-1" |}; containerInsights := true |}].
Proof. split; [reflexivity|]. split; [eexists|]; reflexivity. Qed.

(** C2 (amended).  When the database cluster has no credential handle, the
    constructor throws, and it does so only when the first credential
    reference of the service definition is built: the run has created the
    application secret and then the cluster, and nothing else; no service is
    created and no perimeter is changed. *)
Theorem C2_throws_after_secret_and_cluster scope id props w :
  secret (dbCluster props) = None ->
  (∃ e, (constructor scope id props w).1 = Thrown e)
  ∧ issued scope id props w =
      [NewSecret (secretNode scope id (config props));
       NewCluster (child (child scope id) "backstage-solution-cluster")
                  {| cp_vpc := vpc (network props); containerInsights := true |}]
  ∧ services (issued scope id props w) = []
  ∧ ingress (constructor scope id props w).2 = ingress w.
Proof.
  intros Hs. rewrite issued_throws by done.
  rewrite (constructor_throws scope id props w Hs).
  split; [by eexists|]. by split_and!.
Qed.

Lemma C2_throws_after_secret_and_cluster_witness :
  (∃ e, (constructor Sample.root "Backstage" Sample.noCredentials emptyWorld).1 = Thrown e)
  ∧ issued Sample.root "Backstage" Sample.noCredentials emptyWorld =
      [NewSecret (secretNode Sample.root "Backstage" (config Sample.noCredentials));
       NewCluster (child (child Sample.root "Backstage") "backstage-solution-cluster")
                  {| cp_vpc := vpc (network Sample.noCredentials); containerInsights := true |}]
  ∧ services (issued Sample.root "Backstage" Sample.noCredentials emptyWorld) = []
  ∧ ingress (constructor Sample.root "Backstage" Sample.noCredentials emptyWorld).2
    = ingress emptyWorld.
Proof.
  apply (C2_throws_after_secret_and_cluster
           Sample.root "Backstage" Sample.noCredentials emptyWorld).
  reflexivity.
Defined.

(** ** The scenario of the specification *)

(** C3, as stated, fails: in the scenario the container also receives
    [BACKSTAGE_TITLE], which is none of the keys the claim lists, so the
    injected keys are not exactly the listed ones. *)
Lemma C3_counterexample :
  ∃ sp,
    services (issued Sample.root "Backstage" Sample.scenario emptyWorld) = [sp]
    ∧ "BACKSTAGE_TITLE" ∈ dom (environment (taskImageOptions sp))
    ∧ ("BACKSTAGE_TITLE" ∉ requiredKeys)
    ∧ (dom (environment (taskImageOptions sp)) ∪ dom (secrets (taskImageOptions sp)))
      ≠ requiredKeys.
Proof.
  eexists. split.
  { rewrite (issued_returns _ _ _ Sample.credentials) by reflexivity.
    apply services_trace. }
  rewrite dom_environment, dom_secrets.
  assert (Hin : "BACKSTAGE_TITLE" ∈ environmentKeys) by (by vm_compute).
  assert (Hout : "BACKSTAGE_TITLE" ∉ requiredKeys) by (by vm_compute).
  split_and!; [done|done|].
  intros Heq. apply Hout. rewrite <- Heq. set_solver.
Qed.

(** C3 (amended).  On a database cluster with credential handle, whatever the
    endpoint and the caller maps (so in the scenario too), one service is
    created; it has container port 8080, 2048 MiB, 512 CPU units and 2
    replicas; its secrets are exactly the eight fixed secret keys, and its
    plaintext environment is exactly [POSTGRES_HOST], [POSTGRES_PORT] and the
    ten fixed branding and runtime keys.  Every key the claim lists is among
    them. *)
Theorem C3_sizing_and_exact_keys scope id props s w :
  secret (dbCluster props) = Some s ->
  ∃ sp,
    services (issued scope id props w) = [sp]
    ∧ containerPort (taskImageOptions sp) = 8080%Z
    ∧ desiredCount sp = 2%Z
    ∧ memoryLimitMiB sp = 2048%Z
    ∧ cpu sp = 512%Z
    ∧ dom (secrets (taskImageOptions sp)) = secretKeys
    ∧ dom (environment (taskImageOptions sp)) = environmentKeys
    ∧ requiredKeys ⊆ environmentKeys ∪ secretKeys.
Proof.
  intros Hs. exists (serviceDefinition scope id props s).
  rewrite (issued_returns _ _ _ s) by done.
  rewrite services_trace. split_and!; try reflexivity.
  apply requiredKeys_injected.
Qed.

Lemma C3_sizing_and_exact_keys_witness :
  ∃ sp,
    services (issued Sample.root "Backstage" Sample.scenario emptyWorld) = [sp]
    ∧ containerPort (taskImageOptions sp) = 8080%Z
    ∧ desiredCount sp = 2%Z
    ∧ memoryLimitMiB sp = 2048%Z
    ∧ cpu sp = 512%Z
    ∧ dom (secrets (taskImageOptions sp)) = secretKeys
    ∧ dom (environment (taskImageOptions sp)) = environmentKeys
    ∧ requiredKeys ⊆ environmentKeys ∪ secretKeys.
Proof.
  apply (C3_sizing_and_exact_keys
           Sample.root "Backstage" Sample.scenario Sample.credentials emptyWorld).
  reflexivity.
Defined.

(** ** The conditional decrypt grant *)

(** C4, as stated for every input, fails: with the registry key present and a
    database cluster without credential handle, the run stops before the
    grant, and no grant is issued. *)
Lemma C4_counterexample :
  ecrKmsKey Sample.noCredentials = Defined Sample.key
  ∧ grants (issued Sample.root "Backstage" Sample.noCredentials emptyWorld) = [].
Proof. split; reflexivity. Qed.

(** C4 (amended).  On every input whose database cluster carries its
    credential handle, a decrypt grant on a key to a grantee is issued exactly
    when that key is the registry key of the input and the grantee is the
    execution role of the created task definition.  On every input
    whatsoever, a grant is only ever issued on the key the input supplies,
    and when the key is absent, or present and undefined, no grant is
    issued. *)
Theorem C4_grant_iff_key_present scope id props w :
  (∀ s, secret (dbCluster props) = Some s ->
     ∀ k r, (k, r) ∈ grants (issued scope id props w)
            ↔ ecrKmsKey props = Defined k ∧ r = executionRoleOf scope id (config props))
  ∧ (∀ k r, (k, r) ∈ grants (issued scope id props w) -> ecrKmsKey props = Defined k)
  ∧ (ecrKmsKey props = Absent ∨ ecrKmsKey props = Undefined ->
     grants (issued scope id props w) = []).
Proof.
  assert (Hiff : ∀ s, secret (dbCluster props) = Some s ->
     ∀ k r, (k, r) ∈ grants (issued scope id props w)
            ↔ ecrKmsKey props = Defined k ∧ r = executionRoleOf scope id (config props)).
  { intros s Hs k r. rewrite (issued_returns _ _ _ s), grants_trace by done.
    destruct (ecrKmsKey props) as [| |k'].
    - rewrite elem_of_nil. split; [done | by intros [? _]].
    - rewrite elem_of_nil. split; [done | by intros [? _]].
    - rewrite list_elem_of_singleton.
      split; [by intros [= -> ->] | by intros [[= ->] ->]]. }
  split_and!; [done| |].
  - intros k r. destruct (secret (dbCluster props)) as [s|] eqn:Hs.
    + intros Hin. by apply (Hiff s) in Hin as [? _].
    + rewrite issued_throws by done. cbn. by rewrite elem_of_nil.
  - intros Hk. destruct (secret (dbCluster props)) as [s|] eqn:Hs.
    + rewrite (issued_returns _ _ _ s), grants_trace by done.
      by destruct Hk as [-> | ->].
    + by rewrite issued_throws.
Qed.

Lemma C4_grant_iff_key_present_witness :
  (Sample.key, executionRoleOf Sample.root "Backstage" (config Sample.scenario))
    ∈ grants (issued Sample.root "Backstage"
                (Sample.props (Defined Sample.key) (Some Sample.credentials) Absent Absent)
                emptyWorld)
  ∧ grants (issued Sample.root "Backstage" Sample.scenario emptyWorld) = [].
Proof.
  split.
  - apply (proj1 (C4_grant_iff_key_present Sample.root "Backstage"
                    (Sample.props (Defined Sample.key) (Some Sample.credentials) Absent Absent)
                    emptyWorld) Sample.credentials eq_refl).
    split; reflexivity.
  - apply (proj2 (proj2 (C4_grant_iff_key_present Sample.root "Backstage"
                           Sample.scenario emptyWorld))).
    left. reflexivity.
Defined.

(** ** Fixed policies of the service *)

(** C5.  Every service a run creates redirects HTTP to HTTPS and has HTTPS as
    its external protocol, whatever the input; and a run on a database
    cluster with credential handle creates exactly one service. *)
Theorem C5_listener_https scope id props w :
  Forall (λ sp, redirectHTTP sp = true ∧ protocol sp = HTTPS)
         (services (issued scope id props w))
  ∧ (∀ s, secret (dbCluster props) = Some s ->
       ∃ sp, services (issued scope id props w) = [sp]).
Proof.
  split.
  - destruct (secret (dbCluster props)) as [s|] eqn:Hs.
    + rewrite (issued_returns _ _ _ s), services_trace by done.
      by repeat constructor.
    + rewrite issued_throws by done. constructor.
  - intros s Hs. rewrite (issued_returns _ _ _ s), services_trace by done. by eexists.
Qed.

Lemma C5_listener_https_witness :
  ∃ sp, services (issued Sample.root "Backstage" Sample.scenario emptyWorld) = [sp]
        ∧ redirectHTTP sp = true ∧ protocol sp = HTTPS.
Proof.
  destruct (C5_listener_https Sample.root "Backstage" Sample.scenario emptyWorld)
    as [Hall Hone].
  destruct (Hone Sample.credentials eq_refl) as [sp Hsp].
  exists sp. split; [exact Hsp|].
  rewrite Hsp in Hall. exact (Forall_inv Hall).
Defined.

(** C9.  Every service a run creates has remote command execution enabled,
    whatever the input; and a run on a database cluster with credential
    handle creates exactly one service. *)
Theorem C9_execute_command_enabled scope id props w :
  Forall (λ sp, enableExecuteCommand sp = true) (services (issued scope id props w))
  ∧ (∀ s, secret (dbCluster props) = Some s ->
       ∃ sp, services (issued scope id props w) = [sp]).
Proof.
  split.
  - destruct (secret (dbCluster props)) as [s|] eqn:Hs.
    + rewrite (issued_returns _ _ _ s), services_trace by done.
      by repeat constructor.
    + rewrite issued_throws by done. constructor.
  - intros s Hs. rewrite (issued_returns _ _ _ s), services_trace by done. by eexists.
Qed.

Lemma C9_execute_command_enabled_witness :
  ∃ sp, services (issued Sample.root "Backstage" Sample.scenario emptyWorld) = [sp]
        ∧ enableExecuteCommand sp = true.
Proof.
  destruct (C9_execute_command_enabled Sample.root "Backstage" Sample.scenario emptyWorld)
    as [Hall Hone].
  destruct (Hone Sample.credentials eq_refl) as [sp Hsp].
  exists sp. split; [exact Hsp|].
  rewrite Hsp in Hall. exact (Forall_inv Hall).
Defined.

(** C7.  On every input whose database cluster carries its credential
    handle, whatever else the caller supplies, the one service created has
    container port 8080, 2048 MiB, 512 CPU units and 2 replicas; its
    environment binds [POSTGRES_HOST] and [POSTGRES_PORT] to the endpoint of
    the database; its secrets bind [POSTGRES_USER] and [POSTGRES_PASSWORD] to
    the fields of the credential handle and [BACKSTAGE_SECRET] to the secret
    that this run created. *)
Theorem C7_fixed_container_contract scope id props s w :
  secret (dbCluster props) = Some s ->
  ∃ sp,
    services (issued scope id props w) = [sp]
    ∧ containerPort (taskImageOptions sp) = 8080%Z
    ∧ memoryLimitMiB sp = 2048%Z
    ∧ cpu sp = 512%Z
    ∧ desiredCount sp = 2%Z
    ∧ environment (taskImageOptions sp) !! "POSTGRES_HOST"
      = Some (hostname (clusterEndpoint (dbCluster props)))
    ∧ environment (taskImageOptions sp) !! "POSTGRES_PORT"
      = Some (number_to_string (port (clusterEndpoint (dbCluster props))))
    ∧ secrets (taskImageOptions sp) !! "POSTGRES_USER"
      = Some {| secretRef := s; secretField := Some "username" |}
    ∧ secrets (taskImageOptions sp) !! "POSTGRES_PASSWORD"
      = Some {| secretRef := s; secretField := Some "password" |}
    ∧ secrets (taskImageOptions sp) !! "BACKSTAGE_SECRET"
      = Some {| secretRef := {| secretName := path (secretNode scope id (config props)) |};
                secretField := None |}
    ∧ NewSecret (secretNode scope id (config props)) ∈ issued scope id props w.
Proof.
  intros Hs. exists (serviceDefinition scope id props s).
  rewrite (issued_returns _ _ _ s) by done.
  rewrite services_trace. split_and!; try reflexivity.
  unfold trace. apply elem_of_app. left. apply list_elem_of_here.
Qed.

Lemma C7_fixed_container_contract_witness :
  ∃ sp,
    services (issued Sample.root "Backstage" Sample.withCallerVars emptyWorld) = [sp]
    ∧ containerPort (taskImageOptions sp) = 8080%Z
    ∧ memoryLimitMiB sp = 2048%Z
    ∧ cpu sp = 512%Z
    ∧ desiredCount sp = 2%Z
    ∧ environment (taskImageOptions sp) !! "POSTGRES_HOST" = Some "db.internal"
    ∧ environment (taskImageOptions sp) !! "POSTGRES_PORT" = Some "5432"
    ∧ secrets (taskImageOptions sp) !! "POSTGRES_USER"
      = Some {| secretRef := Sample.credentials; secretField := Some "username" |}
    ∧ secrets (taskImageOptions sp) !! "POSTGRES_PASSWORD"
      = Some {| secretRef := Sample.credentials; secretField := Some "password" |}
    ∧ secrets (taskImageOptions sp) !! "BACKSTAGE_SECRET"
      = Some {| secretRef :=
                  {| secretName := "BackstageStack/Backstage/baws-backstage-appsecret" |};
                secretField := None |}
    ∧ NewSecret {| path := "BackstageStack/Backstage/baws-backstage-appsecret" |}
      ∈ issued Sample.root "Backstage" Sample.withCallerVars emptyWorld.
Proof.
  apply (C7_fixed_container_contract
           Sample.root "Backstage" Sample.withCallerVars Sample.credentials emptyWorld).
  reflexivity.
Defined.

(** ** The perimeter of the database *)

(** C6.  Take any world and two runs of the constructor, one after the other,
    on any inputs.  Every rule that a perimeter holds before the first run is
    still there after the first and after the second.  A run on a database
    cluster with credential handle appends exactly one rule, the one for the
    service it created, to the perimeter of its database; the rule of the
    first run is still there after the second. *)
Theorem C6_perimeter_additive scope1 id1 props1 scope2 id2 props2 w :
  let w1 := (constructor scope1 id1 props1 w).2 in
  let w2 := (constructor scope2 id2 props2 w1).2 in
  (∀ c r, r ∈ rules w c -> r ∈ rules w1 c ∧ r ∈ rules w2 c)
  ∧ (∀ s, secret (dbCluster props1) = Some s ->
       rules w1 (connections (dbCluster props1))
       = rules w (connections (dbCluster props1)) ++ [serviceRule scope1 id1 props1]
       ∧ serviceRule scope1 id1 props1 ∈ rules w2 (connections (dbCluster props1)))
  ∧ (∀ s, secret (dbCluster props2) = Some s ->
       rules w2 (connections (dbCluster props2))
       = rules w1 (connections (dbCluster props2)) ++ [serviceRule scope2 id2 props2]).
Proof.
  intros w1 w2. subst w1 w2.
  assert (Hadd : ∀ scope id props s w0,
    secret (dbCluster props) = Some s ->
    rules (constructor scope id props w0).2 (connections (dbCluster props))
    = rules w0 (connections (dbCluster props)) ++ [serviceRule scope id props]).
  { intros scope id props s w0 Hs. rewrite (rules_returns _ _ _ s) by done.
    by rewrite decide_True. }
  split_and!.
  - intros c r Hr. split.
    + by apply rules_preserved.
    + by do 2 apply rules_preserved.
  - intros s Hs. split; [by apply (Hadd _ _ _ s)|].
    apply rules_preserved. rewrite (Hadd _ _ _ s) by done.
    apply elem_of_app. right. apply list_elem_of_here.
  - intros s Hs. by apply (Hadd _ _ _ s).
Qed.

(** Two services provisioned against the database of the sample, from a
    perimeter that already holds a rule of another service. *)
Lemma C6_perimeter_additive_witness :
  let other := {| peer := {| serviceNode := {| path := "Other/Service" |} |};
                  description := "from reporting" |} in
  let w := {| calls := []; ingress := {["sg-database" := [other]]} |} in
  let w1 := (constructor Sample.root "First" Sample.scenario w).2 in
  let w2 := (constructor Sample.root "Second" Sample.scenario w1).2 in
  rules w2 (connections (dbCluster Sample.scenario))
  = [other;
     serviceRule Sample.root "First" Sample.scenario;
     serviceRule Sample.root "Second" Sample.scenario].
Proof.
  intros other w w1 w2.
  destruct (C6_perimeter_additive Sample.root "First" Sample.scenario
              Sample.root "Second" Sample.scenario w) as (_ & H1 & H2).
  destruct (H1 Sample.credentials eq_refl) as [E1 _].
  pose proof (H2 Sample.credentials eq_refl) as E2.
  subst w2 w1. rewrite E2, E1. reflexivity.
Defined.

(** ** The merge with the defaults *)

(** C8.  In [{ ...defaultProps, ...props }], a key that the caller leaves out
    takes the default: [envVars] and [secretVars] become the empty map.  A
    key that the caller binds to a value keeps that value, whatever the
    defaults are: this holds for [envVars], [secretVars] and the registry
    key, and the required keys are those of the caller. *)
Theorem C8_merge_caller_wins props :
  (envVars props = Absent -> envVars (spread defaultProps props) = Defined ∅)
  ∧ (secretVars props = Absent -> secretVars (spread defaultProps props) = Defined ∅)
  ∧ (∀ d v, envVars props = Defined v -> envVars (spread d props) = Defined v)
  ∧ (∀ d v, secretVars props = Defined v -> secretVars (spread d props) = Defined v)
  ∧ (∀ d k, ecrKmsKey props = Defined k -> ecrKmsKey (spread d props) = Defined k)
  ∧ (∀ d,
       network (spread d props) = network props
       ∧ ecrRepository (spread d props) = ecrRepository props
       ∧ accessLogBucket (spread d props) = accessLogBucket props
       ∧ dbCluster (spread d props) = dbCluster props
       ∧ config (spread d props) = config props
       ∧ oktaSecret (spread d props) = oktaSecret props
       ∧ gitlabAdminSecret (spread d props) = gitlabAdminSecret props
       ∧ taskRole (spread d props) = taskRole props
       ∧ hostedZone (spread d props) = hostedZone props).
Proof.
  split_and!.
  - intros H. cbn. by rewrite H.
  - intros H. cbn. by rewrite H.
  - intros d v H. cbn. by rewrite H.
  - intros d v H. cbn. by rewrite H.
  - intros d k H. cbn. by rewrite H.
  - intros d. by split_and!.
Qed.

Lemma C8_merge_caller_wins_witness :
  envVars (spread defaultProps Sample.noCredentials) = Defined ∅
  ∧ secretVars (spread defaultProps Sample.noCredentials) = Defined ∅
  ∧ envVars (spread defaultProps Sample.withCallerVars)
    = Defined {["LOG_LEVEL" := "debug"]}
  ∧ ecrKmsKey (spread defaultProps Sample.noCredentials) = Defined Sample.key.
Proof.
  destruct (C8_merge_caller_wins Sample.noCredentials) as (He & Hs & _ & _ & Hk & _).
  destruct (C8_merge_caller_wins Sample.withCallerVars) as (_ & _ & Hv & _).
  split_and!.
  - apply He. reflexivity.
  - apply Hs. reflexivity.
  - apply Hv. reflexivity.
  - apply Hk. reflexivity.
Defined.

(** C10.  There is an input whose [envVars] and [secretVars] keys are present
    and bound to [undefined]; merged with the defaults, both are [undefined]
    and not the empty map.  The empty map is what the merge gives for an
    absent key only. *)
Theorem C10_undefined_key_defeats_default :
  ∃ props,
    envVars props = Undefined
    ∧ secretVars props = Undefined
    ∧ envVars (spread defaultProps props) = Undefined
    ∧ secretVars (spread defaultProps props) = Undefined
    ∧ envVars (spread defaultProps props) ≠ Defined ∅
    ∧ secretVars (spread defaultProps props) ≠ Defined ∅.
Proof.
  exists (Sample.props Absent (Some Sample.credentials) Undefined Undefined).
  by split_and!.
Qed.

(** ** Further properties of the constructor *)

(** X1.  The caller maps are never read: with any other [envVars] and
    [secretVars], the run has the same outcome and leaves the same world. *)
Theorem caller_vars_ignored scope id props env sec w :
  constructor scope id (withVars props env sec) w = constructor scope id props w.
Proof.
  destruct (secret (dbCluster props)) as [s|] eqn:Hs.
  - rewrite (constructor_returns scope id props s w Hs).
    by rewrite (constructor_returns scope id (withVars props env sec) s w Hs).
  - rewrite (constructor_throws scope id props w Hs).
    by rewrite (constructor_throws scope id (withVars props env sec) w Hs).
Qed.


(** X3.  The calls of a run that returns, in order: the application secret, the
    cluster, the service on that cluster, access logging, the decrypt grant
    when the registry key is defined, the rule on the perimeter of the
    database, the security group on the load balancer. *)
Theorem calls_in_order scope id props s w :
  secret (dbCluster props) = Some s ->
  ∃ sp,
    issued scope id props w =
      [NewSecret (child (child scope id) (AppPrefix (config props) +:+ "-backstage-appsecret"));
       NewCluster (child (child scope id) "backstage-solution-cluster")
                  {| cp_vpc := vpc (network props); containerInsights := true |};
       NewApplicationLoadBalancedFargateService
         (child (child scope id) (AppPrefix (config props) +:+ "-backstage")) sp;
       LogAccessLogs (loadBalancerOf scope id (config props)) (accessLogBucket props)] ++
      match ecrKmsKey props with
      | Defined k => [GrantDecrypt k (executionRoleOf scope id (config props))]
      | Absent | Undefined => []
      end ++
      [AllowDefaultPortFrom (connections (dbCluster props))
         (serviceOf scope id (config props)) "from fargate service";
       AddSecurityGroup (loadBalancerOf scope id (config props))
         (allowedIpsSg (network props))]
    ∧ image (taskImageOptions sp) = fromEcrRepository (ecrRepository props)
    ∧ ti_taskRole (taskImageOptions sp) = taskRole props.
Proof.
  intros Hs. exists (serviceDefinition scope id props s).
  by rewrite (issued_returns _ _ _ s).
Qed.

Lemma calls_in_order_witness :
  length (issued Sample.root "Backstage" Sample.scenario emptyWorld) = 6
  ∧ length (issued Sample.root "Backstage"
              (Sample.props (Defined Sample.key) (Some Sample.credentials) Absent Absent)
              emptyWorld) = 7.
Proof.
  destruct (calls_in_order Sample.root "Backstage" Sample.scenario
              Sample.credentials emptyWorld eq_refl) as (sp1 & E1 & _).
  destruct (calls_in_order Sample.root "Backstage"
              (Sample.props (Defined Sample.key) (Some Sample.credentials) Absent Absent)
              Sample.credentials emptyWorld eq_refl) as (sp2 & E2 & _).
  rewrite E1, E2. split; reflexivity.
Defined.


(** X5.  The handles a run returns are those of the resources it created: the
    cluster is the one created by the run and the one the service runs on;
    the load balancer is the one whose access logs go to the supplied bucket
    and to which the supplied security group is attached. *)
Theorem returned_handles_created scope id props w r :
  (constructor scope id props w).1 = Returned r ->
  (cluster r) ∈ map (λ c, {| clusterNode := c.1; clusterProps := c.2 |})
                    (clustersCreated (issued scope id props w))
  ∧ Forall (λ sp, sp_cluster sp = cluster r) (services (issued scope id props w))
  ∧ LogAccessLogs (loadBalancer r) (accessLogBucket props) ∈ issued scope id props w
  ∧ AddSecurityGroup (loadBalancer r) (allowedIpsSg (network props))
    ∈ issued scope id props w.
Proof.
  destruct (secret (dbCluster props)) as [s|] eqn:Hs.
  - rewrite (constructor_returns scope id props s w Hs). cbn [fst]. intros [= <-].
    rewrite (issued_returns _ _ _ s) by done. cbn [cluster loadBalancer].
    unfold trace, grantCalls. destruct (ecrKmsKey props); cbn; split_and!;
      try (by repeat constructor); set_solver.
  - by rewrite (constructor_throws scope id props w Hs).
Qed.

Lemma returned_handles_created_witness :
  ∃ r, (constructor Sample.root "Backstage" Sample.scenario emptyWorld).1 = Returned r
       ∧ LogAccessLogs (loadBalancer r) {| bucketName := "access-logs" |}
         ∈ issued Sample.root "Backstage" Sample.scenario emptyWorld.
Proof.
  eexists. split; [reflexivity|].
  apply (returned_handles_created Sample.root "Backstage" Sample.scenario emptyWorld).
  reflexivity.
Defined.

(** X6.  The listener of a created service is never open, and the only security
    group a run attaches to a load balancer is the supplied allowed-ingress
    group, once, on the load balancer of the service it created. *)
Theorem load_balancer_gate scope id props w :
  Forall (λ sp, openListener sp = false) (services (issued scope id props w))
  ∧ securityGroupsAdded (issued scope id props w)
    = match secret (dbCluster props) with
      | Some _ => [(loadBalancerOf scope id (config props), allowedIpsSg (network props))]
      | None => []
      end.
Proof.
  destruct (secret (dbCluster props)) as [s|] eqn:Hs.
  - rewrite (issued_returns _ _ _ s) by done. unfold trace, grantCalls.
    destruct (ecrKmsKey props); cbn; split; by repeat constructor.
  - rewrite issued_throws by done. split; [constructor | done].
Qed.

(** X7.  Every created service is published in the supplied hosted zone under
    the name of the zone itself. *)
Theorem published_at_zone_apex scope id props w :
  Forall (λ sp, domainZone sp = hostedZone' (hostedZone props)
                ∧ domainName sp = zoneName (hostedZone' (hostedZone props)))
         (services (issued scope id props w)).
Proof.
  destruct (secret (dbCluster props)) as [s|] eqn:Hs.
  - rewrite (issued_returns _ _ _ s), services_trace by done. by repeat constructor.
  - rewrite issued_throws by done. constructor.
Qed.

(** X8.  The identity-provider and peer-system secrets of every created service:
    the four Okta keys read the fields [audience], [clientId], [clientSecret]
    and [apiToken] of the supplied Okta secret, and [GITLAB_ADMIN_TOKEN]
    reads the field [apiToken] of the supplied GitLab admin secret. *)
Theorem identity_secrets_wiring scope id props w :
  Forall (λ sp,
      secrets (taskImageOptions sp) !! "OKTA_ORG_URL"
      = Some {| secretRef := oktaSecret props; secretField := Some "audience" |}
      ∧ secrets (taskImageOptions sp) !! "OKTA_CLIENT_ID"
        = Some {| secretRef := oktaSecret props; secretField := Some "clientId" |}
      ∧ secrets (taskImageOptions sp) !! "OKTA_CLIENT_SECRET"
        = Some {| secretRef := oktaSecret props; secretField := Some "clientSecret" |}
      ∧ secrets (taskImageOptions sp) !! "OKTA_API_TOKEN"
        = Some {| secretRef := oktaSecret props; secretField := Some "apiToken" |}
      ∧ secrets (taskImageOptions sp) !! "GITLAB_ADMIN_TOKEN"
        = Some {| secretRef := gitlabAdminSecret props; secretField := Some "apiToken" |})
    (services (issued scope id props w)).
Proof.
  destruct (secret (dbCluster props)) as [s|] eqn:Hs.
  - rewrite (issued_returns _ _ _ s), services_trace by done. by repeat constructor.
  - rewrite issued_throws by done. constructor.
Qed.

(** X9.  The plaintext environment of every created service beyond the database
    endpoint: the Backstage host is the hosted-zone name of the
    configuration and the GitLab host is its [git.] subdomain; the advertised
    protocol and port are those of the HTTPS listener; the branding is that
    of the configuration. *)
Theorem environment_values scope id props w :
  Forall (λ sp,
      environment (taskImageOptions sp) !! "BACKSTAGE_HOSTNAME"
      = Some (R53HostedZoneName (config props))
      ∧ environment (taskImageOptions sp) !! "GITLAB_HOSTNAME"
        = (λ h, "git." +:+ h) <$> environment (taskImageOptions sp) !! "BACKSTAGE_HOSTNAME"
      ∧ environment (taskImageOptions sp) !! "PROTOCOL" = Some "https"
      ∧ protocol sp = HTTPS
      ∧ environment (taskImageOptions sp) !! "BACKSTAGE_PORT" = Some "443"
      ∧ environment (taskImageOptions sp) !! "NODE_ENV" = Some "production"
      ∧ environment (taskImageOptions sp) !! "BACKSTAGE_TITLE" = Some "Backstage AWS Suite"
      ∧ environment (taskImageOptions sp) !! "BACKSTAGE_ORGNAME" = Some "BAWS"
      ∧ environment (taskImageOptions sp) !! "CUSTOMER_NAME"
        = Some (CustomerName (config props))
      ∧ environment (taskImageOptions sp) !! "CUSTOMER_LOGO"
        = Some (CustomerLogo (config props))
      ∧ environment (taskImageOptions sp) !! "CUSTOMER_LOGO_ICON"
        = Some (CustomerLogoIcon (config props)))
    (services (issued scope id props w)).
Proof.
  destruct (secret (dbCluster props)) as [s|] eqn:Hs.
  - rewrite (issued_returns _ _ _ s), services_trace by done. by repeat constructor.
  - rewrite issued_throws by done. constructor.
Qed.

(** X10.  In every created service no key is both a plaintext variable and a
    secret, and there are twelve plaintext variables and eight secrets. *)
Theorem environment_secrets_disjoint scope id props w :
  Forall (λ sp,
      dom (environment (taskImageOptions sp)) ## dom (secrets (taskImageOptions sp))
      ∧ size (environment (taskImageOptions sp)) = 12
      ∧ size (secrets (taskImageOptions sp)) = 8)
    (services (issued scope id props w)).
Proof.
  destruct (secret (dbCluster props)) as [s|] eqn:Hs.
  - rewrite (issued_returns _ _ _ s), services_trace by done.
    repeat constructor.
    rewrite dom_environment, dom_secrets.
    apply (bool_decide_unpack _). by vm_compute.
  - rewrite issued_throws by done. constructor.
Qed.

(** X11.  After the merge with the defaults the keys [envVars] and [secretVars]
    are never absent, the registry key is the caller's, and merging the
    defaults a second time changes nothing. *)
Theorem merge_defaults_idempotent props :
  envVars (spread defaultProps props) ≠ Absent
  ∧ secretVars (spread defaultProps props) ≠ Absent
  ∧ ecrKmsKey (spread defaultProps props) = ecrKmsKey props
  ∧ spread defaultProps (spread defaultProps props) = spread defaultProps props.
Proof.
  destruct props as [nw repo key bucket db cfg okta gitlab role hz ev sv].
  by destruct key, ev, sv.
Qed.

(** ** Names of the created constructs *)

Lemma append_cons a (s t : string) : String a s +:+ t = String a (s +:+ t).
Proof. reflexivity. Qed.

Lemma lastChar_cons a s : s ≠ "" -> lastChar (String a s) = lastChar s.
Proof. by destruct s. Qed.

Lemma append_nonempty (s t : string) : t ≠ "" -> s +:+ t ≠ "".
Proof. by destruct s. Qed.

Lemma lastChar_append s t : t ≠ "" -> lastChar (s +:+ t) = lastChar t.
Proof.
  intros Ht. induction s as [|a s IH]; [done|].
  rewrite append_cons, lastChar_cons by (by apply append_nonempty). done.
Qed.



Lemma child_inj scope id1 id2 : child scope id1 = child scope id2 -> id1 = id2.
Proof.
  unfold child. intros [= E].
  apply (inj (String.append (path scope))) in E.
  by apply (inj (String.append "/")) in E.
Qed.

(** X12.  The three constructs a run creates below its own node, the application
    secret, the cluster and the load-balanced service, have pairwise
    different identifiers and paths, whatever the application prefix is. *)
Theorem child_ids_distinct scope id cfg :
  secretNode scope id cfg ≠ patternNode scope id cfg
  ∧ secretNode scope id cfg ≠ child (child scope id) "backstage-solution-cluster"
  ∧ patternNode scope id cfg ≠ child (child scope id) "backstage-solution-cluster".
Proof.
  unfold secretNode, patternNode. split_and!; intros E; apply child_inj in E.
  - by apply (inj (String.append (AppPrefix cfg))) in E.
  - apply (f_equal lastChar) in E. by rewrite lastChar_append in E.
  - apply (f_equal lastChar) in E. by rewrite lastChar_append in E.
Qed.



(** ** The port of the database *)

Lemma number_to_string_inj (n m : Z) :
  number_to_string n = number_to_string m -> n = m.
Proof.
  unfold number_to_string. intros E.
  assert (Hnz : ∀ z, Z.to_int z ≠ Decimal.Pos Decimal.Nil ∧ Z.to_int z ≠ Decimal.Neg Decimal.Nil).
  { intros [|p|p]; cbn; split; try discriminate;
      intros [= Hp]; by apply Unsigned.to_uint_nonnil in Hp. }
  apply (f_equal NilZero.int_of_string) in E.
  rewrite !NilZero.isi in E by apply Hnz.
  injection E as E. by apply DecimalZ.to_int_inj.
Qed.

Lemma services_issued_inv scope id props w sp :
  sp ∈ services (issued scope id props w) ->
  ∃ s, secret (dbCluster props) = Some s ∧ sp = serviceDefinition scope id props s.
Proof.
  destruct (secret (dbCluster props)) as [s|] eqn:Hs.
  - rewrite (issued_returns _ _ _ s), services_trace by done.
    intros ->%list_elem_of_singleton. by exists s.
  - rewrite issued_throws by done. cbn. by intros ?%elem_of_nil.
Qed.

(** X14.  [POSTGRES_PORT] determines the port: when the services of two runs
    receive the same [POSTGRES_PORT], the databases of the two runs listen on
    the same port. *)
Theorem postgres_port_determines_port scope1 id1 props1 w1 sp1 scope2 id2 props2 w2 sp2 :
  sp1 ∈ services (issued scope1 id1 props1 w1) ->
  sp2 ∈ services (issued scope2 id2 props2 w2) ->
  environment (taskImageOptions sp1) !! "POSTGRES_PORT"
  = environment (taskImageOptions sp2) !! "POSTGRES_PORT" ->
  port (clusterEndpoint (dbCluster props1)) = port (clusterEndpoint (dbCluster props2)).
Proof.
  intros (s1 & _ & ->)%services_issued_inv (s2 & _ & ->)%services_issued_inv E.
  apply number_to_string_inj.
  change (Some (number_to_string (port (clusterEndpoint (dbCluster props1))))
          = Some (number_to_string (port (clusterEndpoint (dbCluster props2))))) in E.
  by injection E.
Qed.

Lemma postgres_port_determines_port_witness :
  port (clusterEndpoint (dbCluster Sample.scenario))
  = port (clusterEndpoint (dbCluster Sample.withCallerVars)).
Proof.
  apply (postgres_port_determines_port
           Sample.root "First" Sample.scenario emptyWorld
           (serviceDefinition Sample.root "First" Sample.scenario Sample.credentials)
           Sample.root "Second" Sample.withCallerVars emptyWorld
           (serviceDefinition Sample.root "Second" Sample.withCallerVars Sample.credentials)).
  - apply list_elem_of_here.
  - apply list_elem_of_here.
  - reflexivity.
Defined.
